(** * swarm/client_factory.py: the client factory and its four resolvers

    A shallow embedding of [src/swarm/client_factory.py].  Python values
    that the module handles are [None] or a [str]; the process state the
    module touches is the class attribute [ClientFactory._clients], the
    environment read through [os.getenv], and (as ghost state) the trace
    of the calls that leave the module. *)

From Stdlib Require Import Ascii.
From stdpp Require Import base gmap strings list.

(** ** Python values *)

Module Py.

(** An argument or attribute of the module: [None] or a [str].  A [str]
    is held as the [string] of its UTF-8 bytes, so that equality,
    emptiness and concatenation are those of the [str]. *)
Definition value := option string.

(** [bool(v)]: [None] and the empty string are falsy. *)
Definition truthy (v : value) : bool :=
  match v with
  | None => false
  | Some s => negb (String.eqb s "")
  end.

(** [c.lower()] on one character of the ASCII range. *)
Definition lower_ascii (c : ascii) : ascii :=
  let n := nat_of_ascii c in
  if (65 <=? n)%nat && (n <=? 90)%nat then ascii_of_nat (n + 32) else c.

(** What [s.lower()] is for a [str] of the ASCII range: the lowercasing
    that the examples run with. *)
Fixpoint ascii_lower (s : string) : string :=
  match s with
  | EmptyString => EmptyString
  | String c s' => String (lower_ascii c) (ascii_lower s')
  end.

(** [sep.join(l)]. *)
Definition join (sep : string) (l : list string) : string :=
  String.concat sep l.

(** A [dict] with [str] keys.  Python keeps the keys in insertion order
    and [keys()] yields them in that order, so the dict is the list of
    its items. *)
Definition dict (V : Type) := list (string * V).

(** [d.get(k)]. *)
Fixpoint get {V} (d : dict V) (k : string) : option V :=
  match d with
  | [] => None
  | (k', v) :: d' => if String.eqb k' k then Some v else get d' k
  end.

(** [d[k] = v]: an existing key keeps its place, a new one goes last. *)
Fixpoint setitem {V} (d : dict V) (k : string) (v : V) : dict V :=
  match d with
  | [] => [(k, v)]
  | (k', v') :: d' =>
      if String.eqb k' k then (k', v) :: d' else (k', v') :: setitem d' k v
  end.

(** [d.keys()]. *)
Definition keys {V} (d : dict V) : list string := map fst d.

End Py.

(** ** The process state and the monad of the module's code *)

(** The resolver classes: the four of the module, and the classes a caller
    defines and hands to [register_client], named by their qualified name. *)
Inductive client_class :=
| OpenAIClient
| AzureOpenAIClient
| OllamaClient
| HuggingFaceClient
| UserClient (qualname : string).

(** The client handles of the [openai] package.  The package is not part of
    the repository: a handle is the constructor that was called, with the
    arguments it was called with. *)
Inductive ClientHandle :=
| OpenAI (api_key base_url organization project : Py.value)
| AzureOpenAI (api_key azure_endpoint api_version azure_deployment : Py.value).

(** The only exception the module raises. *)
Inductive exn := ValueError (msg : string).

(** Calls that leave the factory's own code, in program order. *)
Inductive event :=
| Getenv (key : string)            (* os.getenv(key) *)
| New (cls : client_class)         (* cls(api_key, base_url) *)
| Built (h : ClientHandle).        (* OpenAI(...) or AzureOpenAI(...) *)

Record world := World {
  registry : Py.dict client_class;   (* the dict ClientFactory._clients *)
  environ : gmap string string;      (* os.environ, after load_dotenv() *)
  trace : list event
}.

Inductive outcome (A : Type) :=
| Return (a : A)
| Raise (e : exn).
Arguments Return {A} a.
Arguments Raise {A} e.

(** A computation returns or raises, and leaves a world either way: Python
    does not undo the effects of a call that raises. *)
Definition M (A : Type) : Type := world -> outcome A * world.

Definition ret {A} (a : A) : M A := fun w => (Return a, w).

Definition raise {A} (e : exn) : M A := fun w => (Raise e, w).

Definition bind {A B} (m : M A) (k : A -> M B) : M B :=
  fun w =>
    match m w with
    | (Return a, w') => k a w'
    | (Raise e, w') => (Raise e, w')
    end.

Notation "x <- m ;; k" := (bind m (fun x => k))
  (at level 100, m at next level, right associativity).
Notation "m ;; k" := (bind m (fun _ => k))
  (at level 100, right associativity).

Definition emit (e : event) : M unit :=
  fun w => (Return tt, World (registry w) (environ w) (trace w ++ [e])).

(** [os.getenv(key)]. *)
Definition getenv (key : string) : M Py.value :=
  emit (Getenv key) ;; (fun w => (Return (environ w !! key), w)).

(** [a or b]: [b] is evaluated only when [a] is falsy. *)
Definition or_ (a : Py.value) (b : M Py.value) : M Py.value :=
  if Py.truthy a then ret a else b.

(** [not v] followed by [raise]: the guard of the resolvers. *)
Definition require (v : Py.value) (msg : string) : M unit :=
  if negb (Py.truthy v) then raise (ValueError msg) else ret tt.

(** The call of a constructor of the [openai] package: the call is
    recorded and the handle returned.  What the package itself checks,
    reads and raises is outside the repository and not modelled: a handle
    returned here says that the module reached the package with these
    arguments, not that the package accepted them. *)
Definition build (h : ClientHandle) : M ClientHandle :=
  emit (Built h) ;; ret h.

(** ** The resolvers *)

Module OpenAIClient.

Record t := Self {
  api_key : Py.value;
  base_url : Py.value;
  organization : Py.value;
  project : Py.value
}.

Definition __init__ (api_key base_url organization project : Py.value)
  : M t :=
  api_key <- or_ api_key (getenv "OPENAI_API_KEY") ;;
  require api_key
    "API key must be set in the environment variable 'OPENAI_API_KEY'." ;;
  base_url <- or_ base_url (ret (Some "https://api.openai.com/v1")) ;;
  organization <- or_ organization (getenv "OPENAI_ORG_ID") ;;
  project <- or_ project (getenv "OPENAI_PROJECT_ID") ;;
  ret (Self api_key base_url organization project).

Definition create (self : t) : M ClientHandle :=
  build (OpenAI (api_key self) (base_url self)
                (organization self) (project self)).

End OpenAIClient.

Module AzureOpenAIClient.

Record t := Self {
  api_key : Py.value;
  base_url : Py.value;
  api_version : Py.value;
  azure_deployment : Py.value
}.

Definition __init__ (api_key base_url api_version azure_deployment : Py.value)
  : M t :=
  api_key <- or_ api_key (getenv "AZURE_OPENAI_API_KEY") ;;
  base_url <- or_ base_url (getenv "AZURE_OPENAI_ENDPOINT") ;;
  api_version <- or_ api_version (getenv "OPENAI_API_VERSION") ;;
  azure_deployment <-
    or_ azure_deployment (getenv "AZURE_OPENAI_DEPLOYMENT_NAME") ;;
  ret (Self api_key base_url api_version azure_deployment).

Definition create (self : t) : M ClientHandle :=
  build (AzureOpenAI (api_key self) (base_url self)
                     (api_version self) (azure_deployment self)).

End AzureOpenAIClient.

Module OllamaClient.

Record t := Self {
  api_key : Py.value;
  base_url : Py.value
}.

Definition __init__ (api_key base_url : Py.value) : M t :=
  api_key <- or_ api_key (ret (Some "ollama")) ;;
  base_url <- or_ base_url (getenv "OLLAMA_ENDPOINT_URL") ;;
  ret (Self api_key base_url).

Definition create (self : t) : M ClientHandle :=
  build (OpenAI (api_key self) (base_url self) None None).

End OllamaClient.

Module HuggingFaceClient.

Record t := Self {
  api_key : Py.value;
  base_url : Py.value
}.

Definition __init__ (api_key base_url : Py.value) : M t :=
  api_key <- or_ api_key (getenv "HF_API_TOKEN") ;;
  require api_key
    "API key must be provided either as a parameter or set in the environment variable 'HF_API_TOKEN'." ;;
  base_url <- or_ base_url (getenv "HF_ENDPOINT_URL") ;;
  require base_url
    "Endpoint URL must be provided either as a parameter or set in the environment variable 'HF_ENDPOINT_URL'." ;;
  ret (Self api_key base_url).

Definition create (self : t) : M ClientHandle :=
  build (OpenAI (api_key self) (base_url self) None None).

End HuggingFaceClient.

(** ** The factory *)

Module ClientFactory.

(** The class attribute as the class body initialises it. *)
Definition _clients : Py.dict client_class :=
  [ ("openai", OpenAIClient);
    ("azure", AzureOpenAIClient);
    ("ollama", OllamaClient);
    ("huggingface", HuggingFaceClient) ].

(** The read of [cls._clients]. *)
Definition cls_clients : M (Py.dict client_class) :=
  fun w => (Return (registry w), w).

(** The f-string of the error of [create_client]. *)
Definition unknown_client_name (client_name : string) (keys : list string)
  : string :=
  "Unknown client name: " +:+ client_name +:+ ". Valid options are "
  +:+ Py.join ", " keys +:+ ".".

Section Factory.

(** [str.lower], a method of Python's [str] and no code of the repository:
    a parameter of the factory. *)
Variable lower : string -> string.

(** [C(api_key, base_url).create()] for a class [C] that the caller
    defined: code outside the repository, free to do anything to the
    world. *)
Variable user_client : string -> Py.value -> Py.value -> M ClientHandle.

(** [client_class(api_key, base_url).create()]. *)
Definition construct_and_create
    (client_class : client_class) (api_key base_url : Py.value)
  : M ClientHandle :=
  emit (New client_class) ;;
  match client_class with
  | OpenAIClient =>
      self <- OpenAIClient.__init__ api_key base_url None None ;;
      OpenAIClient.create self
  | AzureOpenAIClient =>
      self <- AzureOpenAIClient.__init__ api_key base_url None None ;;
      AzureOpenAIClient.create self
  | OllamaClient =>
      self <- OllamaClient.__init__ api_key base_url ;;
      OllamaClient.create self
  | HuggingFaceClient =>
      self <- HuggingFaceClient.__init__ api_key base_url ;;
      HuggingFaceClient.create self
  | UserClient qualname => user_client qualname api_key base_url
  end.

(** A class object is truthy, so [not client_class] holds exactly when
    [get] found nothing. *)
Definition create_client
    (client_name : string) (api_key base_url : Py.value)
  : M ClientHandle :=
  d <- cls_clients ;;
  match Py.get d (lower client_name) with
  | None =>
      d <- cls_clients ;;
      raise (ValueError (unknown_client_name client_name (Py.keys d)))
  | Some client_class => construct_and_create client_class api_key base_url
  end.

Definition register_client (name : string) (client_class : client_class)
  : M unit :=
  fun w =>
    (Return tt,
     World (Py.setitem (registry w) (lower name) client_class)
           (environ w) (trace w)).

End Factory.

End ClientFactory.

(** The world once the module is imported, in environment [env]. *)
Definition imported (env : gmap string string) : world :=
  World ClientFactory._clients env [].

(** A history of calls of the factory's two class methods. *)
Inductive call :=
| CreateClient (client_name : string) (api_key base_url : Py.value)
| RegisterClient (name : string) (client_class : client_class).

Section History.

Variable lower : string -> string.
Variable user_client : string -> Py.value -> Py.value -> M ClientHandle.

(** The world after one call; a caller that catches the exception goes on
    in the world the call left. *)
Definition after_call (w : world) (c : call) : world :=
  match c with
  | CreateClient client_name api_key base_url =>
      snd (ClientFactory.create_client lower user_client
             client_name api_key base_url w)
  | RegisterClient name client_class =>
      snd (ClientFactory.register_client lower name client_class w)
  end.

Definition after_calls (w : world) (cs : list call) : world :=
  fold_left after_call cs w.

End History.

(** The class most recently registered by a history under the lowercase
    name [key], if the history registers one. *)
Fixpoint last_registered (lower : string -> string) (key : string)
    (cs : list call) : option client_class :=
  match cs with
  | [] => None
  | c :: cs' =>
      match last_registered lower key cs' with
      | Some T => Some T
      | None =>
          match c with
          | RegisterClient name T =>
              if String.eqb (lower name) key then Some T else None
          | CreateClient _ _ _ => None
          end
      end
  end.

(** ** Vocabulary of the statements *)

(** The value an attribute takes from [arg or fallback]. *)
Definition resolved (arg fallback : Py.value) : Py.value :=
  if Py.truthy arg then arg else fallback.

(** [needle] occurs in [hay]. *)
Definition mentions (hay needle : string) : Prop :=
  exists pre post, hay = pre +:+ needle +:+ post.

(** The world [w] with [evs] appended to its trace. *)
Definition logged (w : world) (evs : list event) : world :=
  World (registry w) (environ w) (trace w ++ evs).

(** The read of the environment that [arg or os.getenv(key)] makes. *)
Definition reads (arg : Py.value) (key : string) : list event :=
  if Py.truthy arg then [] else [Getenv key].

(** No constructor of the [openai] package was called in [evs]. *)
Definition no_handle (evs : list event) : Prop :=
  forall h, Built h ∉ evs.

(** A user class that leaves [ClientFactory._clients] alone. *)
Definition keeps_registry
    (user_client : string -> Py.value -> Py.value -> M ClientHandle) : Prop :=
  forall qualname api_key base_url w,
    registry (snd (user_client qualname api_key base_url w)) = registry w.

(** A user class for the examples: it forwards its two arguments to the
    [OpenAI] constructor. *)
Definition forwarding_client
  : string -> Py.value -> Py.value -> M ClientHandle :=
  fun _ api_key base_url => build (OpenAI api_key base_url None None).

(** A class of a caller that registers a class while it is constructed:
    [def __init__(self, api_key=None, base_url=None):
         ClientFactory.register_client("shadow", OllamaClient); ...]. *)
Definition registering_client (lower : string -> string)
  : string -> Py.value -> Py.value -> M ClientHandle :=
  fun _ api_key base_url =>
    ClientFactory.register_client lower "shadow" OllamaClient ;;
    build (OpenAI api_key base_url None None).

(** The history shows every registration: no call of [create_client] in
    it changed the registry (as the construction of a class that registers
    would). *)
Fixpoint registrations_shown (lower : string -> string)
    (user_client : string -> Py.value -> Py.value -> M ClientHandle)
    (w : world) (cs : list call) : Prop :=
  match cs with
  | [] => True
  | c :: cs' =>
      match c with
      | CreateClient _ _ _ =>
          registry (after_call lower user_client w c) = registry w
      | RegisterClient _ _ => True
      end
      /\ registrations_shown lower user_client
           (after_call lower user_client w c) cs'
  end.


(** One of the four classes of the module. *)
Definition builtin (c : client_class) : Prop :=
  forall qualname, c <> UserClient qualname.

(** The variables named in the [os.getenv] calls of a class of the
    module. *)
Definition variables (c : client_class) : list string :=
  match c with
  | OpenAIClient =>
      ["OPENAI_API_KEY"; "OPENAI_ORG_ID"; "OPENAI_PROJECT_ID"]
  | AzureOpenAIClient =>
      ["AZURE_OPENAI_API_KEY"; "AZURE_OPENAI_ENDPOINT";
       "OPENAI_API_VERSION"; "AZURE_OPENAI_DEPLOYMENT_NAME"]
  | OllamaClient => ["OLLAMA_ENDPOINT_URL"]
  | HuggingFaceClient => ["HF_API_TOKEN"; "HF_ENDPOINT_URL"]
  | UserClient _ => []
  end.

(** Every event of [evs] is a read of a variable of [vars]. *)
Definition reads_within (vars : list string) (evs : list event) : Prop :=
  forall e, e ∈ evs -> exists key, e = Getenv key /\ key ∈ vars.

(** The keys that a history adds to a registry whose keys are [seen], in
    the order in which it adds them: the lowercased name of each
    registration under a name that is not a key yet. *)
Fixpoint registered_keys (lower : string -> string) (seen : list string)
    (cs : list call) : list string :=
  match cs with
  | [] => []
  | CreateClient _ _ _ :: cs' => registered_keys lower seen cs'
  | RegisterClient name _ :: cs' =>
      if bool_decide (lower name ∈ seen)
      then registered_keys lower seen cs'
      else lower name :: registered_keys lower (seen ++ [lower name]) cs'
  end.

(** ** Facts about the Python values *)

Lemma truthy_Some (v : Py.value) :
  Py.truthy v = true <-> exists s, v = Some s /\ s <> "".
Proof.
  destruct v as [s|]; simpl.
  - rewrite negb_true_iff. split.
    + intros H. exists s. split; [done|]. by apply String.eqb_neq.
    + intros (s' & [= <-] & Hne). by apply String.eqb_neq.
  - split; [done|]. by intros (s & ? & _).
Qed.

Lemma truthy_empty : Py.truthy (Some "") = Py.truthy None.
Proof. reflexivity. Qed.

Lemma resolved_empty (fallback : Py.value) :
  resolved (Some "") fallback = resolved None fallback.
Proof. reflexivity. Qed.

Lemma lower_ascii_idem (c : ascii) :
  Py.lower_ascii (Py.lower_ascii c) = Py.lower_ascii c.
Proof. by destruct c as [[] [] [] [] [] [] [] []]. Qed.

Lemma ascii_lower_idem (s : string) :
  Py.ascii_lower (Py.ascii_lower s) = Py.ascii_lower s.
Proof.
  induction s as [|c s IH]; simpl; [done|].
  by rewrite lower_ascii_idem, IH.
Qed.

Section Dict.

Context {V : Type}.
Implicit Types (d : Py.dict V) (k : string) (v : V).

Lemma get_None d k : Py.get d k = None <-> k ∉ Py.keys d.
Proof.
  induction d as [|[k' v'] d IH]; simpl.
  - split; [|done]. intros _. apply not_elem_of_nil.
  - rewrite not_elem_of_cons. destruct (String.eqb_spec k' k) as [->|Hne].
    + split; [done|]. by intros [? _].
    + rewrite IH. split; [|by intros [_ ?]].
      intros ?. split; [|done]. by intros ->.
Qed.

Lemma get_is_Some d k : is_Some (Py.get d k) <-> k ∈ Py.keys d.
Proof.
  rewrite <- not_eq_None_Some, get_None.
  split; [|by intros ? ?]. intros H.
  by destruct (decide (k ∈ Py.keys d)).
Qed.

Lemma get_setitem d k v : Py.get (Py.setitem d k v) k = Some v.
Proof.
  induction d as [|[k' v'] d IH]; simpl.
  - by rewrite String.eqb_refl.
  - destruct (String.eqb k' k) eqn:E; simpl; by rewrite E.
Qed.

Lemma get_setitem_ne d k k' v :
  k <> k' -> Py.get (Py.setitem d k v) k' = Py.get d k'.
Proof.
  intros Hne. induction d as [|[k0 v0] d IH]; simpl.
  - by apply String.eqb_neq in Hne as ->.
  - destruct (String.eqb_spec k0 k) as [->|Hk]; simpl.
    + by apply String.eqb_neq in Hne as ->.
    + by rewrite IH.
Qed.


(** Overwriting keeps the keys and their order. *)
Lemma keys_setitem_old d k v :
  k ∈ Py.keys d -> Py.keys (Py.setitem d k v) = Py.keys d.
Proof.
  induction d as [|[k0 v0] d IH]; simpl.
  - by intros ?%elem_of_nil.
  - intros Hin. destruct (String.eqb_spec k0 k) as [->|Hk]; [done|].
    simpl. f_equal. apply IH.
    apply elem_of_cons in Hin as [->|]; done.
Qed.

(** Inserting puts the new key last. *)
Lemma keys_setitem_new d k v :
  k ∉ Py.keys d -> Py.keys (Py.setitem d k v) = Py.keys d ++ [k].
Proof.
  induction d as [|[k0 v0] d IH]; simpl; [done|].
  intros [Hne Hnin]%not_elem_of_cons.
  destruct (String.eqb_spec k0 k) as [->|Hk]; [done|].
  simpl. f_equal. by apply IH.
Qed.

(** A dict never holds a key twice. *)
Lemma keys_setitem_NoDup d k v :
  NoDup (Py.keys d) -> NoDup (Py.keys (Py.setitem d k v)).
Proof.
  intros Hnd. destruct (decide (k ∈ Py.keys d)) as [Hin|Hnin].
  - by rewrite keys_setitem_old.
  - rewrite keys_setitem_new by done.
    apply NoDup_app. split_and!; [done| |apply NoDup_singleton].
    intros x Hx ->%list_elem_of_singleton. done.
Qed.

End Dict.

Lemma _clients_NoDup : NoDup (Py.keys ClientFactory._clients).
Proof. apply (bool_decide_unpack _). by vm_compute. Qed.

(** ** The resolvers, as functions of arguments and environment *)

Lemma logged_nil (w : world) : logged w [] = w.
Proof. destruct w. unfold logged. simpl. by rewrite app_nil_r. Qed.

Lemma logged_logged (w : world) (a b : list event) :
  logged (logged w a) b = logged w (a ++ b).
Proof. unfold logged. simpl. by rewrite app_assoc. Qed.

Lemma bind_eq {A B} (m : M A) (k : A -> M B) (w : world) :
  bind m k w =
  match m w with
  | (Return a, w') => k a w'
  | (Raise e, w') => (Raise e, w')
  end.
Proof. reflexivity. Qed.

Lemma ret_eq {A} (a : A) (w : world) : ret a w = (Return a, w).
Proof. reflexivity. Qed.

Lemma raise_eq {A} (e : exn) (w : world) : raise e w = (@Raise A e, w).
Proof. reflexivity. Qed.

Lemma getenv_eq (key : string) (w : world) :
  getenv key w = (Return (environ w !! key), logged w [Getenv key]).
Proof. reflexivity. Qed.

Lemma or_getenv_eq (arg : Py.value) (key : string) (w : world) :
  or_ arg (getenv key) w =
  (Return (resolved arg (environ w !! key)), logged w (reads arg key)).
Proof.
  unfold or_, resolved, reads. destruct (Py.truthy arg).
  - by rewrite logged_nil.
  - apply getenv_eq.
Qed.

Lemma or_ret_eq (arg default : Py.value) (w : world) :
  or_ arg (ret default) w = (Return (resolved arg default), w).
Proof. unfold or_, resolved. by destruct (Py.truthy arg). Qed.

Lemma require_eq (v : Py.value) (msg : string) (w : world) :
  require v msg w =
  if Py.truthy v then (Return tt, w) else (Raise (ValueError msg), w).
Proof. unfold require. by destruct (Py.truthy v). Qed.

Lemma emit_eq (e : event) (w : world) :
  emit e w = (Return tt, logged w [e]).
Proof. reflexivity. Qed.

Lemma build_eq (h : ClientHandle) (w : world) :
  build h w = (Return h, logged w [Built h]).
Proof. reflexivity. Qed.

Ltac step :=
  repeat first
    [ rewrite bind_eq
    | rewrite or_getenv_eq
    | rewrite or_ret_eq
    | rewrite require_eq
    | rewrite build_eq
    | rewrite emit_eq
    | rewrite ret_eq
    | rewrite raise_eq
    | rewrite logged_logged ];
  rewrite <- ?app_assoc; simpl.

Lemma OpenAIClient_init_eq (api_key base_url organization project : Py.value)
    (w : world) :
  OpenAIClient.__init__ api_key base_url organization project w =
  let key := resolved api_key (environ w !! "OPENAI_API_KEY") in
  if Py.truthy key then
    (Return
       (OpenAIClient.Self key
          (resolved base_url (Some "https://api.openai.com/v1"))
          (resolved organization (environ w !! "OPENAI_ORG_ID"))
          (resolved project (environ w !! "OPENAI_PROJECT_ID"))),
     logged w (reads api_key "OPENAI_API_KEY"
               ++ reads organization "OPENAI_ORG_ID"
               ++ reads project "OPENAI_PROJECT_ID"))
  else
    (Raise (ValueError
       "API key must be set in the environment variable 'OPENAI_API_KEY'."),
     logged w (reads api_key "OPENAI_API_KEY")).
Proof.
  unfold OpenAIClient.__init__. step.
  destruct (Py.truthy (resolved api_key _)); [|done].
  by step.
Qed.

Lemma AzureOpenAIClient_init_eq
    (api_key base_url api_version azure_deployment : Py.value) (w : world) :
  AzureOpenAIClient.__init__ api_key base_url api_version azure_deployment w =
  (Return
     (AzureOpenAIClient.Self
        (resolved api_key (environ w !! "AZURE_OPENAI_API_KEY"))
        (resolved base_url (environ w !! "AZURE_OPENAI_ENDPOINT"))
        (resolved api_version (environ w !! "OPENAI_API_VERSION"))
        (resolved azure_deployment
           (environ w !! "AZURE_OPENAI_DEPLOYMENT_NAME"))),
   logged w (reads api_key "AZURE_OPENAI_API_KEY"
             ++ reads base_url "AZURE_OPENAI_ENDPOINT"
             ++ reads api_version "OPENAI_API_VERSION"
             ++ reads azure_deployment "AZURE_OPENAI_DEPLOYMENT_NAME")).
Proof.
  unfold AzureOpenAIClient.__init__. by step.
Qed.

Lemma OllamaClient_init_eq (api_key base_url : Py.value) (w : world) :
  OllamaClient.__init__ api_key base_url w =
  (Return
     (OllamaClient.Self
        (resolved api_key (Some "ollama"))
        (resolved base_url (environ w !! "OLLAMA_ENDPOINT_URL"))),
   logged w (reads base_url "OLLAMA_ENDPOINT_URL")).
Proof. unfold OllamaClient.__init__. by step. Qed.

Lemma HuggingFaceClient_init_eq (api_key base_url : Py.value) (w : world) :
  HuggingFaceClient.__init__ api_key base_url w =
  let key := resolved api_key (environ w !! "HF_API_TOKEN") in
  let url := resolved base_url (environ w !! "HF_ENDPOINT_URL") in
  if Py.truthy key then
    if Py.truthy url then
      (Return (HuggingFaceClient.Self key url),
       logged w (reads api_key "HF_API_TOKEN"
                 ++ reads base_url "HF_ENDPOINT_URL"))
    else
      (Raise (ValueError
         "Endpoint URL must be provided either as a parameter or set in the environment variable 'HF_ENDPOINT_URL'."),
       logged w (reads api_key "HF_API_TOKEN"
                 ++ reads base_url "HF_ENDPOINT_URL"))
  else
    (Raise (ValueError
       "API key must be provided either as a parameter or set in the environment variable 'HF_API_TOKEN'."),
     logged w (reads api_key "HF_API_TOKEN")).
Proof.
  unfold HuggingFaceClient.__init__. step.
  destruct (Py.truthy (resolved api_key _)); [|done].
  step. by destruct (Py.truthy (resolved base_url _)).
Qed.

Lemma truthy_resolved (arg fallback : Py.value) :
  Py.truthy (resolved arg fallback) = Py.truthy arg || Py.truthy fallback.
Proof. unfold resolved. by destruct (Py.truthy arg) eqn:E. Qed.

Lemma elem_of_reads (arg : Py.value) (key : string) (e : event) :
  e ∈ reads arg key -> e = Getenv key.
Proof.
  unfold reads. destruct (Py.truthy arg).
  - by intros ?%elem_of_nil.
  - by intros ?%list_elem_of_singleton.
Qed.

Lemma no_handle_reads (arg : Py.value) (key : string) :
  no_handle (reads arg key).
Proof. by intros h ?%elem_of_reads. Qed.

Lemma no_handle_app (a b : list event) :
  no_handle a -> no_handle b -> no_handle (a ++ b).
Proof. intros Ha Hb h [?|?]%elem_of_app; [by eapply Ha|by eapply Hb]. Qed.

Lemma no_handle_cons (e : event) (evs : list event) :
  (forall h, e <> Built h) -> no_handle evs -> no_handle (e :: evs).
Proof.
  intros He Hevs h [Heq|?]%elem_of_cons; [by eapply He|by eapply Hevs].
Qed.

(** ** The factory, as a function of the registry *)

Section FactoryFacts.

Variable lower : string -> string.
Variable user_client : string -> Py.value -> Py.value -> M ClientHandle.

Lemma create_client_eq (client_name : string) (api_key base_url : Py.value)
    (w : world) :
  ClientFactory.create_client lower user_client client_name api_key base_url w =
  match Py.get (registry w) (lower client_name) with
  | None =>
      (Raise (ValueError
         (ClientFactory.unknown_client_name client_name
            (Py.keys (registry w)))), w)
  | Some client_class =>
      ClientFactory.construct_and_create user_client
        client_class api_key base_url w
  end.
Proof.
  unfold ClientFactory.create_client, ClientFactory.cls_clients.
  rewrite bind_eq. by destruct (Py.get _ _).
Qed.

Lemma register_client_eq (name : string) (T : client_class) (w : world) :
  ClientFactory.register_client lower name T w =
  (Return tt,
   World (Py.setitem (registry w) (lower name) T) (environ w) (trace w)).
Proof. reflexivity. Qed.

End FactoryFacts.

(** ** Unknown names *)

(** C1.  When the lowercased name is not a key of the registry,
    [create_client] raises [ValueError]; the message is the f-string of the
    source, which joins the keys that the registry holds at the call, in
    their order, and those keys are exactly the names that a lookup finds.
    The world is left as it was: the trace gains no [New], so no resolver is
    constructed, and no read of the environment or handle either. *)
Theorem create_client_unknown_name
    (lower : string -> string)
    (user_client : string -> Py.value -> Py.value -> M ClientHandle)
    (client_name : string) (api_key base_url : Py.value) (w : world) :
  lower client_name ∉ Py.keys (registry w) ->
  ClientFactory.create_client lower user_client client_name api_key base_url w =
    (Raise (ValueError
       ("Unknown client name: " +:+ client_name +:+ ". Valid options are "
        +:+ Py.join ", " (Py.keys (registry w)) +:+ ".")), w)
  /\ (forall name,
        name ∈ Py.keys (registry w) <-> is_Some (Py.get (registry w) name))
  /\ Py.join ", " [] = ""
  /\ (forall k, Py.join ", " [k] = k)
  /\ (forall k k' ks,
        Py.join ", " (k :: k' :: ks)
        = k +:+ ", " +:+ Py.join ", " (k' :: ks)).
Proof.
  intros Hkey. split_and!; try done.
  - rewrite create_client_eq.
    by apply get_None in Hkey as ->.
  - intros name. symmetry. apply get_is_Some.
Qed.

Lemma create_client_unknown_name_witness :
  let w :=
    after_calls Py.ascii_lower forwarding_client (imported ∅)
      [RegisterClient "Mistral" (UserClient "MistralClient")] in
  (Py.ascii_lower "Foo" ∉ Py.keys (registry w)) /\
  ClientFactory.create_client Py.ascii_lower forwarding_client
    "Foo" None (Some "http://h") w =
    (Raise (ValueError
       "Unknown client name: Foo. Valid options are openai, azure, ollama, huggingface, mistral."),
     w).
Proof.
  intros w.
  assert (H : Py.ascii_lower "Foo" ∉ Py.keys (registry w)).
  { apply (bool_decide_unpack _). vm_compute. exact I. }
  split; [exact H|].
  exact (proj1 (create_client_unknown_name Py.ascii_lower forwarding_client
                  "Foo" None (Some "http://h") w H)).
Defined.

(** A name registered at run time is listed too. *)
Example unknown_name_lists_registered :
  fst (ClientFactory.create_client Py.ascii_lower forwarding_client
    "Foo" None None
         (after_calls Py.ascii_lower forwarding_client (imported ∅)
            [RegisterClient "Mistral" (UserClient "MistralClient")])) =
  Raise (ValueError
    "Unknown client name: Foo. Valid options are openai, azure, ollama, huggingface, mistral.").
Proof. reflexivity. Qed.

(** ** Construction of the four resolvers *)

(** C2.  [OpenAIClient]: when neither the argument nor [OPENAI_API_KEY]
    gives a non-empty value, the constructor raises the [ValueError] that
    names [OPENAI_API_KEY]; when either does, it returns a resolver, whose
    endpoint is the argument or else the fixed URL. *)
Theorem OpenAIClient_init_credential
    (api_key base_url organization project : Py.value) (w : world) :
  let supplied :=
    Py.truthy api_key || Py.truthy (environ w !! "OPENAI_API_KEY") in
  let r := fst (OpenAIClient.__init__ api_key base_url organization project w) in
  (supplied = false ->
     r = Raise (ValueError
           "API key must be set in the environment variable 'OPENAI_API_KEY'.")
     /\ mentions
          "API key must be set in the environment variable 'OPENAI_API_KEY'."
          "OPENAI_API_KEY")
  /\ (supplied = true ->
        exists self,
          r = Return self
          /\ OpenAIClient.api_key self =
               resolved api_key (environ w !! "OPENAI_API_KEY")
          /\ OpenAIClient.base_url self =
               resolved base_url (Some "https://api.openai.com/v1")
          /\ Py.truthy (OpenAIClient.base_url self) = true).
Proof.
  intros supplied r. subst r. rewrite OpenAIClient_init_eq. simpl.
  rewrite truthy_resolved. fold supplied. split; intros ->; simpl.
  - split; [done|].
    by exists "API key must be set in the environment variable '", "'.".
  - eexists. split_and!; try done.
    simpl. rewrite truthy_resolved. apply orb_true_r.
Qed.

Lemma OpenAIClient_init_credential_witness :
  fst (OpenAIClient.__init__ None None None None (imported ∅)) =
    Raise (ValueError
      "API key must be set in the environment variable 'OPENAI_API_KEY'.")
  /\ (exists self,
        fst (OpenAIClient.__init__ None None None None
               (imported {[ "OPENAI_API_KEY" := "sk-env" ]})) = Return self
        /\ OpenAIClient.api_key self = Some "sk-env")
  /\ (exists self,
        fst (OpenAIClient.__init__ (Some "sk-arg") None None None
               (imported ∅)) = Return self
        /\ OpenAIClient.api_key self = Some "sk-arg").
Proof.
  split_and!.
  - apply (OpenAIClient_init_credential None None None None (imported ∅)).
    vm_compute. reflexivity.
  - destruct (proj2 (OpenAIClient_init_credential None None None None
                       (imported {[ "OPENAI_API_KEY" := "sk-env" ]})))
      as (self & Hr & Hk & _); [vm_compute; reflexivity|].
    exists self. split; [exact Hr|]. rewrite Hk. vm_compute. reflexivity.
  - destruct (proj2 (OpenAIClient_init_credential (Some "sk-arg") None None
                       None (imported ∅)))
      as (self & Hr & Hk & _); [vm_compute; reflexivity|].
    exists self. split; [exact Hr|]. rewrite Hk. vm_compute. reflexivity.
Defined.

(** C3.  [HuggingFaceClient]: the constructor raises when neither the
    argument nor [HF_API_TOKEN] gives a non-empty credential, and raises
    when neither the argument nor [HF_ENDPOINT_URL] gives a non-empty
    endpoint (the credential is checked first); it returns a resolver when
    both are given, each by its argument or by its variable. *)
Theorem HuggingFaceClient_init_required
    (api_key base_url : Py.value) (w : world) :
  let credential :=
    Py.truthy api_key || Py.truthy (environ w !! "HF_API_TOKEN") in
  let endpoint :=
    Py.truthy base_url || Py.truthy (environ w !! "HF_ENDPOINT_URL") in
  let r := fst (HuggingFaceClient.__init__ api_key base_url w) in
  (credential = false ->
     r = Raise (ValueError
           "API key must be provided either as a parameter or set in the environment variable 'HF_API_TOKEN'."))
  /\ (endpoint = false ->
        r = Raise (ValueError
              (if credential
               then "Endpoint URL must be provided either as a parameter or set in the environment variable 'HF_ENDPOINT_URL'."
               else "API key must be provided either as a parameter or set in the environment variable 'HF_API_TOKEN'.")))
  /\ (credential = true -> endpoint = true ->
        r = Return
              (HuggingFaceClient.Self
                 (resolved api_key (environ w !! "HF_API_TOKEN"))
                 (resolved base_url (environ w !! "HF_ENDPOINT_URL")))).
Proof.
  intros credential endpoint r. subst r.
  rewrite HuggingFaceClient_init_eq. simpl.
  rewrite !truthy_resolved. fold credential endpoint.
  split_and!.
  - by intros ->.
  - intros ->. by destruct credential.
  - by intros -> ->.
Qed.

Lemma HuggingFaceClient_init_required_witness :
  fst (HuggingFaceClient.__init__ None (Some "http://h") (imported ∅)) =
    Raise (ValueError
      "API key must be provided either as a parameter or set in the environment variable 'HF_API_TOKEN'.")
  /\ fst (HuggingFaceClient.__init__ (Some "hf-arg") None (imported ∅)) =
       Raise (ValueError
         "Endpoint URL must be provided either as a parameter or set in the environment variable 'HF_ENDPOINT_URL'.")
  /\ fst (HuggingFaceClient.__init__ (Some "hf-arg") None
            (imported {[ "HF_ENDPOINT_URL" := "http://env" ]})) =
       Return (HuggingFaceClient.Self (Some "hf-arg") (Some "http://env")).
Proof.
  split_and!.
  - apply (HuggingFaceClient_init_required None (Some "http://h")
             (imported ∅)).
    vm_compute. reflexivity.
  - apply (HuggingFaceClient_init_required (Some "hf-arg") None (imported ∅)).
    vm_compute. reflexivity.
  - etrans.
    + apply (HuggingFaceClient_init_required (Some "hf-arg") None
               (imported {[ "HF_ENDPOINT_URL" := "http://env" ]}));
        vm_compute; reflexivity.
    + vm_compute. reflexivity.
Defined.

(** C4.  [OllamaClient]: the constructor returns a resolver for every pair
    of arguments in every world.  Without a (non-empty) credential argument
    the credential is the string "ollama".  The only variable the
    constructor reads is [OLLAMA_ENDPOINT_URL], and the credential is the
    same in every other world, whatever its environment holds. *)
Theorem OllamaClient_init_placeholder
    (api_key base_url : Py.value) (w : world) :
  exists self evs,
    OllamaClient.__init__ api_key base_url w = (Return self, logged w evs)
    /\ (Py.truthy api_key = false -> OllamaClient.api_key self = Some "ollama")
    /\ (Py.truthy api_key = true -> OllamaClient.api_key self = api_key)
    /\ (forall e, e ∈ evs -> e = Getenv "OLLAMA_ENDPOINT_URL")
    /\ (forall w2, exists self2,
          fst (OllamaClient.__init__ api_key base_url w2) = Return self2
          /\ OllamaClient.api_key self2 = OllamaClient.api_key self).
Proof.
  eexists _, _. split; [apply OllamaClient_init_eq|]. simpl.
  unfold resolved. split_and!.
  - by intros ->.
  - by intros ->.
  - apply elem_of_reads.
  - intros w2. rewrite OllamaClient_init_eq. by eexists.
Qed.

Lemma OllamaClient_init_placeholder_witness :
  exists self,
    fst (OllamaClient.__init__ None None
           (imported {[ "OLLAMA_API_KEY" := "secret" ]})) = Return self
    /\ OllamaClient.api_key self = Some "ollama".
Proof.
  destruct (OllamaClient_init_placeholder None None
              (imported {[ "OLLAMA_API_KEY" := "secret" ]}))
    as (self & evs & Hr & Hnone & _).
  exists self. split.
  - rewrite Hr. reflexivity.
  - apply Hnone. reflexivity.
Defined.

(** C5.  [AzureOpenAIClient]: the constructor returns a resolver for every
    four arguments in every world.  Each attribute is its argument when
    the argument is supplied (a non-empty string, as [or] has it), else the
    value of its variable, which is [None] when the variable is not set. *)
Theorem AzureOpenAIClient_init_never_fails
    (api_key base_url api_version azure_deployment : Py.value) (w : world) :
  exists w',
    AzureOpenAIClient.__init__ api_key base_url api_version azure_deployment w
    = (Return
         (AzureOpenAIClient.Self
            (if Py.truthy api_key then api_key
             else environ w !! "AZURE_OPENAI_API_KEY")
            (if Py.truthy base_url then base_url
             else environ w !! "AZURE_OPENAI_ENDPOINT")
            (if Py.truthy api_version then api_version
             else environ w !! "OPENAI_API_VERSION")
            (if Py.truthy azure_deployment then azure_deployment
             else environ w !! "AZURE_OPENAI_DEPLOYMENT_NAME")),
       w').
Proof. eexists. apply AzureOpenAIClient_init_eq. Qed.

(** With nothing given and nothing set, every attribute is [None]. *)
Example AzureOpenAIClient_init_all_absent :
  fst (AzureOpenAIClient.__init__ None None None None (imported ∅)) =
  Return (AzureOpenAIClient.Self None None None None).
Proof. reflexivity. Qed.

(** ** What a call of [create_client] leaves behind *)

Section Frame.

Variable lower : string -> string.
Variable user_client : string -> Py.value -> Py.value -> M ClientHandle.

(** The four classes of the module only append to the trace, and a call
    that raises has not reached the [openai] package. *)
Lemma construct_and_create_builtin
    (c : client_class) (api_key base_url : Py.value) (w : world) :
  (forall qualname, c <> UserClient qualname) ->
  exists evs,
    snd (ClientFactory.construct_and_create user_client c api_key base_url w)
    = logged w (New c :: evs)
    /\ (forall e,
          fst (ClientFactory.construct_and_create user_client
                 c api_key base_url w) = Raise e ->
          no_handle evs).
Proof.
  intros Hc. unfold ClientFactory.construct_and_create.
  rewrite bind_eq, emit_eq.
  destruct c as [| | | |qualname]; [| | | |by destruct (Hc qualname)];
    rewrite bind_eq.
  - rewrite OpenAIClient_init_eq. simpl.
    destruct (Py.truthy (resolved api_key _)).
    + unfold OpenAIClient.create. step. eexists. split; [done|].
      intros e [=].
    + step. eexists. split; [done|]. intros _ _. apply no_handle_reads.
  - rewrite AzureOpenAIClient_init_eq.
    unfold AzureOpenAIClient.create. step. eexists. split; [done|].
    intros e [=].
  - rewrite OllamaClient_init_eq.
    unfold OllamaClient.create. step. eexists. split; [done|].
    intros e [=].
  - rewrite HuggingFaceClient_init_eq. simpl.
    destruct (Py.truthy (resolved api_key _)).
    + destruct (Py.truthy (resolved base_url _)).
      * unfold HuggingFaceClient.create. step. eexists. split; [done|].
        intros e [=].
      * step. eexists. split; [done|]. intros _ _.
        apply no_handle_app; apply no_handle_reads.
    + step. eexists. split; [done|]. intros _ _. apply no_handle_reads.
Qed.

(** [create_client] itself writes nothing: the registry it leaves is the
    one it found, or the one the user's class left. *)
Lemma registry_create_client
    (client_name : string) (api_key base_url : Py.value) (w : world) :
  registry (snd (ClientFactory.create_client lower user_client
                   client_name api_key base_url w)) =
  match Py.get (registry w) (lower client_name) with
  | Some (UserClient qualname) =>
      registry (snd (user_client qualname api_key base_url
                       (logged w [New (UserClient qualname)])))
  | _ => registry w
  end.
Proof.
  rewrite create_client_eq.
  destruct (Py.get _ _) as [c|]; [|done].
  destruct c as [| | | |qualname];
    try (edestruct construct_and_create_builtin as (evs & -> & _); done).
  unfold ClientFactory.construct_and_create. by rewrite bind_eq, emit_eq.
Qed.

Hypothesis user_keeps : keeps_registry user_client.

Lemma registry_create_client_kept
    (client_name : string) (api_key base_url : Py.value) (w : world) :
  registry (snd (ClientFactory.create_client lower user_client
                   client_name api_key base_url w)) = registry w.
Proof.
  rewrite registry_create_client.
  destruct (Py.get _ _) as [[| | | |qualname]|]; try done.
  by rewrite user_keeps.
Qed.

(** The lookup after a history: the last registration of the key, or
    else what the registry held before. *)
Lemma get_after_calls (cs : list call) (key : string) (w : world) :
  Py.get (registry (after_calls lower user_client w cs)) key =
  match last_registered lower key cs with
  | Some T => Some T
  | None => Py.get (registry w) key
  end.
Proof.
  unfold after_calls. revert w.
  induction cs as [|c cs IH]; intros w; simpl; [done|].
  rewrite IH.
  destruct (last_registered lower key cs); [done|].
  destruct c as [n k u|n T]; simpl.
  - by rewrite registry_create_client_kept.
  - destruct (String.eqb_spec (lower n) key) as [<-|Hne].
    + apply get_setitem.
    + by apply get_setitem_ne.
Qed.

(** The list of items stays a dict: from the import on, no history makes
    a key occur twice. *)
Lemma after_calls_NoDup (cs : list call) (w : world) :
  NoDup (Py.keys (registry w)) ->
  NoDup (Py.keys (registry (after_calls lower user_client w cs))).
Proof.
  unfold after_calls. revert w.
  induction cs as [|c cs IH]; intros w Hw; simpl; [done|].
  apply IH. destruct c as [n k u|n T]; simpl.
  - by rewrite registry_create_client_kept.
  - by apply keys_setitem_NoDup.
Qed.

End Frame.

(** ** Case of the name *)

(** C6, as stated, fails: for a name that is not registered the error of
    [create_client] quotes the name as the caller wrote it, so ["Foo"] and
    its lowercase form ["foo"] do not raise the same error. *)
Lemma create_client_error_quotes_name :
  Py.ascii_lower "Foo" = "foo"
  /\ fst (ClientFactory.create_client Py.ascii_lower forwarding_client
            "Foo" None None (imported ∅)) =
       Raise (ValueError
         "Unknown client name: Foo. Valid options are openai, azure, ollama, huggingface.")
  /\ fst (ClientFactory.create_client Py.ascii_lower forwarding_client
            (Py.ascii_lower "Foo") None None (imported ∅)) =
       Raise (ValueError
         "Unknown client name: foo. Valid options are openai, azure, ollama, huggingface.")
  /\ ClientFactory.create_client Py.ascii_lower forwarding_client
       "Foo" None None (imported ∅)
     <> ClientFactory.create_client Py.ascii_lower forwarding_client
          (Py.ascii_lower "Foo") None None (imported ∅).
Proof.
  split_and!; [reflexivity..|].
  intros H. apply (f_equal fst) in H. vm_compute in H. discriminate H.
Qed.

(** C6, amended.  Whatever [str.lower] does, two names with the same
    lowercase form are one name to the factory: [register_client] leaves
    the same world for both, and [create_client] looks both up under the
    same key; when the key is registered the two calls are the same
    computation, when it is not both raise the unknown-name [ValueError] in
    an unchanged world, with the same list of valid names, each message
    quoting the name as written.  The lowercase form of a name is such a
    second name as soon as lowercasing it again changes nothing.  In the
    world of the import, ["OpenAI"], ["openai"] and ["OPENAI"] are the same
    call, all three lowercasing to ["openai"]. *)
Theorem create_client_case_insensitive
    (lower : string -> string)
    (user_client : string -> Py.value -> Py.value -> M ClientHandle)
    (name : string) (T : client_class) (api_key base_url : Py.value)
    (w : world) :
  let same_name name' :=
    ClientFactory.register_client lower name' T w =
      ClientFactory.register_client lower name T w
    /\ (is_Some (Py.get (registry w) (lower name)) ->
        ClientFactory.create_client lower user_client
          name' api_key base_url w =
        ClientFactory.create_client lower user_client
          name api_key base_url w)
    /\ (Py.get (registry w) (lower name) = None ->
        let valid :=
          ". Valid options are " +:+ Py.join ", " (Py.keys (registry w))
          +:+ "." in
        ClientFactory.create_client lower user_client
          name' api_key base_url w =
          (Raise (ValueError
             ("Unknown client name: " +:+ name' +:+ valid)), w)
        /\ ClientFactory.create_client lower user_client
             name api_key base_url w =
             (Raise (ValueError
                ("Unknown client name: " +:+ name +:+ valid)), w)) in
  (forall name', lower name' = lower name -> same_name name')
  /\ (lower (lower name) = lower name -> same_name (lower name))
  /\ (lower "OpenAI" = "openai" ->
      lower "OPENAI" = "openai" ->
      lower "openai" = "openai" ->
      forall env,
        ClientFactory.create_client lower user_client
          "OpenAI" api_key base_url (imported env) =
        ClientFactory.create_client lower user_client
          "openai" api_key base_url (imported env)
        /\ ClientFactory.create_client lower user_client
             "OPENAI" api_key base_url (imported env) =
           ClientFactory.create_client lower user_client
             "openai" api_key base_url (imported env)).
Proof.
  intros same_name.
  assert (Hsame : forall name', lower name' = lower name -> same_name name').
  { intros name' Hname'. unfold same_name. split_and!.
    - by rewrite !register_client_eq, Hname'.
    - intros [c Hc]. by rewrite !create_client_eq, Hname', Hc.
    - intros Hnone. cbv zeta.
      rewrite !create_client_eq, Hname', Hnone.
      unfold ClientFactory.unknown_client_name. split; reflexivity. }
  split_and!; [done|by apply Hsame|].
  intros H1 H2 H3 env. by rewrite !create_client_eq, H1, H2, H3.
Qed.

Lemma create_client_case_insensitive_witness :
  ClientFactory.create_client Py.ascii_lower forwarding_client "HuggingFACE"
    (Some "hf-arg") (Some "http://h") (imported ∅) =
  ClientFactory.create_client Py.ascii_lower forwarding_client "huggingface"
    (Some "hf-arg") (Some "http://h") (imported ∅)
  /\ ClientFactory.register_client Py.ascii_lower
       (Py.ascii_lower "HuggingFace") OllamaClient (imported ∅) =
     ClientFactory.register_client Py.ascii_lower
       "HuggingFace" OllamaClient (imported ∅).
Proof.
  destruct (create_client_case_insensitive Py.ascii_lower forwarding_client
              "HuggingFace" OllamaClient (Some "hf-arg") (Some "http://h")
              (imported ∅)) as (Hsame & Hlower & _).
  destruct (Hsame "HuggingFACE" eq_refl) as (_ & H1 & _).
  destruct (Hsame "huggingface" eq_refl) as (_ & H2 & _).
  destruct (Hlower eq_refl) as (H3 & _).
  split; [|exact H3].
  rewrite H1, H2; [reflexivity| |]; vm_compute; eexists; reflexivity.
Defined.

(** ** Registration *)

Section Shown.

Variable lower : string -> string.
Variable user_client : string -> Py.value -> Py.value -> M ClientHandle.


(** The lookup after a history that shows every registration. *)
Lemma get_after_shown (cs : list call) (key : string) (w : world) :
  registrations_shown lower user_client w cs ->
  Py.get (registry (after_calls lower user_client w cs)) key =
  match last_registered lower key cs with
  | Some T => Some T
  | None => Py.get (registry w) key
  end.
Proof.
  unfold after_calls. revert w.
  induction cs as [|c cs IH]; intros w Hcs; simpl; [done|].
  destruct Hcs as [Hc Hcs]. rewrite IH by done.
  destruct (last_registered lower key cs); [done|].
  destruct c as [n k u|n T].
  - by rewrite Hc.
  - simpl. destruct (String.eqb_spec (lower n) key) as [<-|Hne].
    + apply get_setitem.
    + by apply get_setitem_ne.
Qed.

Lemma keeps_registry_shown (cs : list call) (w : world) :
  keeps_registry user_client -> registrations_shown lower user_client w cs.
Proof.
  intros Hkeeps. revert w.
  induction cs as [|c cs IH]; intros w; simpl; [done|].
  split; [|apply IH]. destruct c as [n k u|n T]; [|done].
  simpl. by apply registry_create_client_kept.
Qed.

End Shown.


Lemma forwarding_client_keeps_registry : keeps_registry forwarding_client.
Proof. intros qualname api_key base_url w. reflexivity. Qed.


(** A registration under the name of a class of the module replaces it:
    ["openai"] now gives what [OllamaClient] gives. *)
Example register_over_builtin :
  fst (ClientFactory.create_client Py.ascii_lower forwarding_client
         "openai" None None
         (snd (ClientFactory.register_client Py.ascii_lower
                 "OpenAI" OllamaClient (imported ∅)))) =
  Return (OpenAI (Some "ollama") None None None)
  /\ fst (ClientFactory.create_client Py.ascii_lower forwarding_client
            "openai" None None (imported ∅)) =
     Raise (ValueError
       "API key must be set in the environment variable 'OPENAI_API_KEY'.").
Proof. split; vm_compute; reflexivity. Qed.

(** ** Required attributes *)

(** C8.  A resolver that [OpenAIClient] returns has a non-empty string as
    credential, and one that [HuggingFaceClient] returns has non-empty
    strings as credential and endpoint, whatever the arguments (the empty
    string among them) and the environment.  When the construction of one
    of the two raises inside [create_client], the events of the call hold
    no call of the [openai] package. *)
Theorem required_attributes_nonempty :
  (forall api_key base_url organization project w self w',
     OpenAIClient.__init__ api_key base_url organization project w
     = (Return self, w') ->
     exists s, OpenAIClient.api_key self = Some s /\ s <> "")
  /\ (forall api_key base_url w self w',
        HuggingFaceClient.__init__ api_key base_url w = (Return self, w') ->
        (exists s, HuggingFaceClient.api_key self = Some s /\ s <> "")
        /\ (exists s, HuggingFaceClient.base_url self = Some s /\ s <> ""))
  /\ (forall lower user_client client_name c api_key base_url w e w',
        Py.get (registry w) (lower client_name) = Some c ->
        c = OpenAIClient \/ c = HuggingFaceClient ->
        ClientFactory.create_client lower user_client client_name api_key base_url w
        = (Raise e, w') ->
        exists evs, w' = logged w evs /\ no_handle evs).
Proof.
  split_and!.
  - intros api_key base_url organization project w self w'.
    rewrite OpenAIClient_init_eq. simpl.
    destruct (Py.truthy (resolved api_key _)) eqn:Hkey; [|done].
    intros [= <- _]. simpl. by apply truthy_Some.
  - intros api_key base_url w self w'.
    rewrite HuggingFaceClient_init_eq. simpl.
    destruct (Py.truthy (resolved api_key _)) eqn:Hkey; [|done].
    destruct (Py.truthy (resolved base_url _)) eqn:Hurl; [|done].
    intros [= <- _]. simpl. split; by apply truthy_Some.
  - intros lower user_client client_name c api_key base_url w e w' Hget Hc.
    rewrite create_client_eq, Hget. intros Hraise.
    destruct (construct_and_create_builtin user_client c api_key base_url w)
      as (evs & Hw' & Hno).
    { intros qualname. by destruct Hc as [-> | ->]. }
    rewrite Hraise in Hw', Hno. simpl in Hw', Hno. subst w'.
    exists (New c :: evs). split; [done|].
    apply no_handle_cons; [done|]. by eapply Hno.
Qed.

Lemma required_attributes_nonempty_witness :
  exists self s,
    fst (OpenAIClient.__init__ (Some "") None None None
           (imported {[ "OPENAI_API_KEY" := "sk-env" ]})) = Return self
    /\ OpenAIClient.api_key self = Some s /\ s <> "".
Proof.
  destruct (OpenAIClient.__init__ (Some "") None None None
              (imported {[ "OPENAI_API_KEY" := "sk-env" ]}))
    as [r w'] eqn:Hrun.
  assert (Hself : exists self, r = Return self).
  { vm_compute in Hrun. injection Hrun as <- _. eexists. reflexivity. }
  destruct Hself as [self ->].
  destruct (proj1 required_attributes_nonempty _ _ _ _ _ _ _ Hrun)
    as (s & Hs & Hne).
  exists self, s. split; [reflexivity|]. split; [exact Hs|exact Hne].
Defined.

(** An empty credential argument with no variable set fails before the
    package is reached. *)
Example create_client_fails_before_handle :
  ClientFactory.create_client Py.ascii_lower forwarding_client
    "HuggingFace" (Some "") None
    (imported ∅) =
  (Raise (ValueError
     "API key must be provided either as a parameter or set in the environment variable 'HF_API_TOKEN'."),
   logged (imported ∅) [New HuggingFaceClient; Getenv "HF_API_TOKEN"]).
Proof. reflexivity. Qed.

(** ** The registry is written by registration only *)

(** C9, as stated, fails: a class that a caller registered may register
    a class while it is constructed, and the call of [create_client] that
    constructs it then leaves a registry with one more name. *)
Lemma create_client_of_registering_class :
  let w :=
    snd (ClientFactory.register_client Py.ascii_lower
           "evil" (UserClient "Evil") (imported ∅)) in
  let w' :=
    snd (ClientFactory.create_client Py.ascii_lower
           (registering_client Py.ascii_lower) "evil" None None w) in
  Py.keys (registry w) = ["openai"; "azure"; "ollama"; "huggingface"; "evil"]
  /\ Py.keys (registry w')
     = ["openai"; "azure"; "ollama"; "huggingface"; "evil"; "shadow"]
  /\ registry w' <> registry w.
Proof.
  split_and!; [reflexivity..|].
  intros H. apply (f_equal Py.keys) in H. vm_compute in H. discriminate H.
Qed.

(** C9, amended.  The registry that a call of [create_client] leaves is
    the one it found when the name is unknown or names one of the four
    classes of the module, whether the call returns or raises; for a class
    of the caller it is the registry that the class's own code leaves.  So
    with classes that register nothing themselves every call of
    [create_client] leaves the registry as it was, and so does each
    constructor of the module. *)
Theorem create_client_keeps_registry
    (lower : string -> string)
    (user_client : string -> Py.value -> Py.value -> M ClientHandle)
    (client_name : string) (api_key base_url : Py.value) (w : world) :
  registry (snd (ClientFactory.create_client lower user_client
                   client_name api_key base_url w)) =
    match Py.get (registry w) (lower client_name) with
    | Some (UserClient qualname) =>
        registry (snd (user_client qualname api_key base_url
                         (logged w [New (UserClient qualname)])))
    | _ => registry w
    end
  /\ (keeps_registry user_client ->
      forall client_name api_key base_url w,
        registry (snd (ClientFactory.create_client lower user_client
                         client_name api_key base_url w)) = registry w)
  /\ (forall organization project,
        registry (snd (OpenAIClient.__init__
                         api_key base_url organization project w))
        = registry w)
  /\ (forall api_version azure_deployment,
        registry (snd (AzureOpenAIClient.__init__
                         api_key base_url api_version azure_deployment w))
        = registry w)
  /\ registry (snd (OllamaClient.__init__ api_key base_url w)) = registry w
  /\ registry (snd (HuggingFaceClient.__init__ api_key base_url w))
     = registry w.
Proof.
  split_and!.
  - apply registry_create_client.
  - intros Hkeeps. by apply registry_create_client_kept.
  - intros organization project. rewrite OpenAIClient_init_eq. simpl.
    by destruct (Py.truthy _).
  - intros api_version azure_deployment.
    by rewrite AzureOpenAIClient_init_eq.
  - by rewrite OllamaClient_init_eq.
  - rewrite HuggingFaceClient_init_eq. simpl.
    by repeat destruct (Py.truthy _).
Qed.

Lemma create_client_keeps_registry_witness :
  registry (snd (ClientFactory.create_client Py.ascii_lower forwarding_client
                   "mistral" None None
                   (after_calls Py.ascii_lower forwarding_client (imported ∅)
                      [RegisterClient "Mistral" (UserClient "Mistral")])))
  = registry (after_calls Py.ascii_lower forwarding_client (imported ∅)
                [RegisterClient "Mistral" (UserClient "Mistral")]).
Proof.
  apply (proj1 (proj2 (create_client_keeps_registry Py.ascii_lower forwarding_client
                         "x" None None (imported ∅)))).
  exact forwarding_client_keeps_registry.
Defined.

(** ** The empty string as argument *)

(** C10, as stated, fails: [AzureOpenAIClient] called with the empty string
    as credential, in an environment that sets [AZURE_OPENAI_API_KEY] to
    the empty string, stores the empty string; so does [OllamaClient] for
    its endpoint with [OLLAMA_ENDPOINT_URL] set to the empty string. *)
Lemma empty_string_stored_from_environment :
  fst (AzureOpenAIClient.__init__ (Some "") None None None
         (imported {[ "AZURE_OPENAI_API_KEY" := "" ]})) =
    Return (AzureOpenAIClient.Self (Some "") None None None)
  /\ fst (OllamaClient.__init__ None (Some "")
            (imported {[ "OLLAMA_ENDPOINT_URL" := "" ]})) =
       Return (OllamaClient.Self (Some "ollama") (Some "")).
Proof. split; vm_compute; reflexivity. Qed.

(** C10, amended.  For each of the four constructors the empty string as
    credential, and as endpoint, is the same call as [None].  What is
    stored is then the fallback: the credential and the endpoint of
    [OpenAIClient], the credential of [OllamaClient] and both attributes
    of [HuggingFaceClient] are never empty; the credential and the
    endpoint of [AzureOpenAIClient] and the endpoint of [OllamaClient] are
    the values of their variables (the empty string when the variable is
    set to it, [None] when it is not set). *)
Theorem empty_argument_as_omitted
    (api_key base_url extra1 extra2 : Py.value) (w : world) :
  (OpenAIClient.__init__ (Some "") base_url extra1 extra2 w =
     OpenAIClient.__init__ None base_url extra1 extra2 w
   /\ OpenAIClient.__init__ api_key (Some "") extra1 extra2 w =
        OpenAIClient.__init__ api_key None extra1 extra2 w
   /\ AzureOpenAIClient.__init__ (Some "") base_url extra1 extra2 w =
        AzureOpenAIClient.__init__ None base_url extra1 extra2 w
   /\ AzureOpenAIClient.__init__ api_key (Some "") extra1 extra2 w =
        AzureOpenAIClient.__init__ api_key None extra1 extra2 w
   /\ OllamaClient.__init__ (Some "") base_url w =
        OllamaClient.__init__ None base_url w
   /\ OllamaClient.__init__ api_key (Some "") w =
        OllamaClient.__init__ api_key None w
   /\ HuggingFaceClient.__init__ (Some "") base_url w =
        HuggingFaceClient.__init__ None base_url w
   /\ HuggingFaceClient.__init__ api_key (Some "") w =
        HuggingFaceClient.__init__ api_key None w)
  /\ (forall self w',
        OpenAIClient.__init__ api_key base_url extra1 extra2 w
        = (Return self, w') ->
        Py.truthy (OpenAIClient.api_key self) = true
        /\ Py.truthy (OpenAIClient.base_url self) = true)
  /\ (forall self w',
        HuggingFaceClient.__init__ api_key base_url w = (Return self, w') ->
        Py.truthy (HuggingFaceClient.api_key self) = true
        /\ Py.truthy (HuggingFaceClient.base_url self) = true)
  /\ (exists self w',
        OllamaClient.__init__ api_key base_url w = (Return self, w')
        /\ Py.truthy (OllamaClient.api_key self) = true
        /\ (Py.truthy base_url = false ->
            OllamaClient.base_url self = environ w !! "OLLAMA_ENDPOINT_URL"))
  /\ (exists self w',
        AzureOpenAIClient.__init__ api_key base_url extra1 extra2 w
        = (Return self, w')
        /\ (Py.truthy api_key = false ->
            AzureOpenAIClient.api_key self
            = environ w !! "AZURE_OPENAI_API_KEY")
        /\ (Py.truthy base_url = false ->
            AzureOpenAIClient.base_url self
            = environ w !! "AZURE_OPENAI_ENDPOINT")).
Proof.
  split; [|split_and!].
  - split_and!;
      rewrite ?OpenAIClient_init_eq, ?AzureOpenAIClient_init_eq,
        ?OllamaClient_init_eq, ?HuggingFaceClient_init_eq; reflexivity.
  - intros self w'. rewrite OpenAIClient_init_eq. simpl.
    destruct (Py.truthy (resolved api_key _)) eqn:Hkey; [|done].
    intros [= <- _]. simpl. split; [done|].
    rewrite truthy_resolved. apply orb_true_r.
  - intros self w'. rewrite HuggingFaceClient_init_eq. simpl.
    destruct (Py.truthy (resolved api_key _)) eqn:Hkey; [|done].
    destruct (Py.truthy (resolved base_url _)) eqn:Hurl; [|done].
    by intros [= <- _].
  - eexists _, _. split; [apply OllamaClient_init_eq|]. simpl. split.
    + rewrite truthy_resolved. apply orb_true_r.
    + unfold resolved. by intros ->.
  - eexists _, _. split; [apply AzureOpenAIClient_init_eq|]. simpl.
    unfold resolved. split; by intros ->.
Qed.

Lemma empty_argument_as_omitted_witness :
  (exists self,
     fst (OpenAIClient.__init__ (Some "") None None None
            (imported {[ "OPENAI_API_KEY" := "sk-env" ]})) = Return self
     /\ Py.truthy (OpenAIClient.api_key self) = true)
  /\ HuggingFaceClient.__init__ (Some "") (Some "http://h") (imported ∅) =
     HuggingFaceClient.__init__ None (Some "http://h") (imported ∅).
Proof.
  split.
  - destruct (OpenAIClient.__init__ (Some "") None None None
                (imported {[ "OPENAI_API_KEY" := "sk-env" ]}))
      as [r w'] eqn:Hrun.
    assert (Hself : exists self, r = Return self).
    { vm_compute in Hrun. injection Hrun as <- _. eexists. reflexivity. }
    destruct Hself as [self ->].
    exists self. split; [reflexivity|].
    exact (proj1 (proj1 (proj2 (empty_argument_as_omitted
                                  (Some "") None None None
                                  (imported {[ "OPENAI_API_KEY" := "sk-env" ]})))
                    self w' Hrun)).
  - destruct (empty_argument_as_omitted None (Some "http://h") None None
                (imported ∅)) as [(_ & _ & _ & _ & _ & _ & H & _) _].
    exact H.
Defined.

(** The empty credential fails or succeeds as the omitted one does. *)
Example empty_credential_fails_or_succeeds :
  fst (OpenAIClient.__init__ (Some "") None None None (imported ∅)) =
    Raise (ValueError
      "API key must be set in the environment variable 'OPENAI_API_KEY'.")
  /\ fst (OpenAIClient.__init__ (Some "") None None None
            (imported {[ "OPENAI_API_KEY" := "sk-env" ]})) =
       Return (OpenAIClient.Self (Some "sk-env")
                 (Some "https://api.openai.com/v1") None None).
Proof. split; vm_compute; reflexivity. Qed.


(** ** The four classes under the factory, call by call *)

Section Calls.

Variable user_client : string -> Py.value -> Py.value -> M ClientHandle.

Lemma construct_OpenAIClient (api_key base_url : Py.value) (w : world) :
  ClientFactory.construct_and_create user_client OpenAIClient
    api_key base_url w =
  let key := resolved api_key (environ w !! "OPENAI_API_KEY") in
  let h :=
    OpenAI key (resolved base_url (Some "https://api.openai.com/v1"))
      (environ w !! "OPENAI_ORG_ID") (environ w !! "OPENAI_PROJECT_ID") in
  if Py.truthy key then
    (Return h,
     logged w (New OpenAIClient
               :: (reads api_key "OPENAI_API_KEY"
                   ++ [Getenv "OPENAI_ORG_ID"; Getenv "OPENAI_PROJECT_ID"])
               ++ [Built h]))
  else
    (Raise (ValueError
       "API key must be set in the environment variable 'OPENAI_API_KEY'."),
     logged w (New OpenAIClient :: reads api_key "OPENAI_API_KEY")).
Proof.
  unfold ClientFactory.construct_and_create.
  rewrite bind_eq, emit_eq, bind_eq, OpenAIClient_init_eq. simpl.
  destruct (Py.truthy (resolved api_key _)); [|by step].
  unfold OpenAIClient.create. by step.
Qed.

Lemma construct_AzureOpenAIClient (api_key base_url : Py.value) (w : world) :
  ClientFactory.construct_and_create user_client AzureOpenAIClient
    api_key base_url w =
  let h :=
    AzureOpenAI (resolved api_key (environ w !! "AZURE_OPENAI_API_KEY"))
      (resolved base_url (environ w !! "AZURE_OPENAI_ENDPOINT"))
      (environ w !! "OPENAI_API_VERSION")
      (environ w !! "AZURE_OPENAI_DEPLOYMENT_NAME") in
  (Return h,
   logged w (New AzureOpenAIClient
             :: (reads api_key "AZURE_OPENAI_API_KEY"
                 ++ reads base_url "AZURE_OPENAI_ENDPOINT"
                 ++ [Getenv "OPENAI_API_VERSION";
                     Getenv "AZURE_OPENAI_DEPLOYMENT_NAME"])
             ++ [Built h])).
Proof.
  unfold ClientFactory.construct_and_create.
  rewrite bind_eq, emit_eq, bind_eq, AzureOpenAIClient_init_eq.
  unfold AzureOpenAIClient.create. by step.
Qed.

Lemma construct_OllamaClient (api_key base_url : Py.value) (w : world) :
  ClientFactory.construct_and_create user_client OllamaClient
    api_key base_url w =
  let h :=
    OpenAI (resolved api_key (Some "ollama"))
      (resolved base_url (environ w !! "OLLAMA_ENDPOINT_URL")) None None in
  (Return h,
   logged w (New OllamaClient
             :: reads base_url "OLLAMA_ENDPOINT_URL" ++ [Built h])).
Proof.
  unfold ClientFactory.construct_and_create.
  rewrite bind_eq, emit_eq, bind_eq, OllamaClient_init_eq.
  unfold OllamaClient.create. by step.
Qed.

Lemma construct_HuggingFaceClient (api_key base_url : Py.value) (w : world) :
  ClientFactory.construct_and_create user_client HuggingFaceClient
    api_key base_url w =
  let key := resolved api_key (environ w !! "HF_API_TOKEN") in
  let url := resolved base_url (environ w !! "HF_ENDPOINT_URL") in
  let h := OpenAI key url None None in
  if Py.truthy key then
    if Py.truthy url then
      (Return h,
       logged w (New HuggingFaceClient
                 :: (reads api_key "HF_API_TOKEN"
                     ++ reads base_url "HF_ENDPOINT_URL")
                 ++ [Built h]))
    else
      (Raise (ValueError
         "Endpoint URL must be provided either as a parameter or set in the environment variable 'HF_ENDPOINT_URL'."),
       logged w (New HuggingFaceClient
                 :: reads api_key "HF_API_TOKEN"
                 ++ reads base_url "HF_ENDPOINT_URL"))
  else
    (Raise (ValueError
       "API key must be provided either as a parameter or set in the environment variable 'HF_API_TOKEN'."),
     logged w (New HuggingFaceClient :: reads api_key "HF_API_TOKEN")).
Proof.
  unfold ClientFactory.construct_and_create.
  rewrite bind_eq, emit_eq, bind_eq, HuggingFaceClient_init_eq. simpl.
  destruct (Py.truthy (resolved api_key _)); [|by step].
  destruct (Py.truthy (resolved base_url _)); [|by step].
  unfold HuggingFaceClient.create. by step.
Qed.

End Calls.

Lemma reads_within_nil (vars : list string) : reads_within vars [].
Proof. by intros e ?%elem_of_nil. Qed.

Lemma reads_within_cons (vars : list string) (key : string)
    (evs : list event) :
  key ∈ vars -> reads_within vars evs -> reads_within vars (Getenv key :: evs).
Proof.
  intros Hkey Hevs e [->|He]%elem_of_cons; [by exists key|by apply Hevs].
Qed.

Lemma reads_within_reads (vars : list string) (arg : Py.value)
    (key : string) :
  key ∈ vars -> reads_within vars (reads arg key).
Proof.
  intros Hkey. unfold reads. destruct (Py.truthy arg).
  - apply reads_within_nil.
  - by apply reads_within_cons; [|apply reads_within_nil].
Qed.

Lemma reads_within_app (vars : list string) (a b : list event) :
  reads_within vars a -> reads_within vars b -> reads_within vars (a ++ b).
Proof. intros Ha Hb e [?|?]%elem_of_app; [by apply Ha|by apply Hb]. Qed.

Ltac own_reads :=
  repeat first
    [ apply reads_within_nil
    | apply reads_within_app
    | apply reads_within_reads
    | apply reads_within_cons ];
  repeat constructor.

(** ** A call of [create_client], seen from outside *)

(** X1.  Under a class of the module a call of [create_client]
    instantiates the class, then only reads variables of that class, then
    calls the package at most once: a call that passes the module's checks
    ends with the one call of the package whose handle it returns, a call
    that raises one of the module's errors has made none.  Registry and
    environment are as before. *)
Theorem create_client_trace_shape
    (lower : string -> string)
    (user_client : string -> Py.value -> Py.value -> M ClientHandle)
    (client_name : string) (c : client_class) (api_key base_url : Py.value)
    (w : world) :
  Py.get (registry w) (lower client_name) = Some c ->
  builtin c ->
  exists gs,
    reads_within (variables c) gs
    /\ match ClientFactory.create_client lower user_client
               client_name api_key base_url w with
       | (Return h, w') => w' = logged w (New c :: gs ++ [Built h])
       | (Raise _, w') => w' = logged w (New c :: gs)
       end.
Proof.
  intros Hget Hc. rewrite create_client_eq, Hget.
  destruct c as [| | | |qualname]; [| | | |by destruct (Hc qualname)].
  - rewrite construct_OpenAIClient. simpl.
    destruct (Py.truthy (resolved api_key _));
      (eexists; split; [|reflexivity]); own_reads.
  - rewrite construct_AzureOpenAIClient. simpl.
    eexists; split; [|reflexivity]. own_reads.
  - rewrite construct_OllamaClient. simpl.
    eexists; split; [|reflexivity]. own_reads.
  - rewrite construct_HuggingFaceClient. simpl.
    destruct (Py.truthy (resolved api_key _));
      [destruct (Py.truthy (resolved base_url _))|];
      (eexists; split; [|reflexivity]); own_reads.
Qed.

Lemma create_client_trace_shape_witness :
  exists gs,
    reads_within ["HF_API_TOKEN"; "HF_ENDPOINT_URL"] gs
    /\ snd (ClientFactory.create_client Py.ascii_lower forwarding_client
      "HuggingFace"
              (Some "hf-arg") None (imported ∅)) =
       logged (imported ∅) (New HuggingFaceClient :: gs).
Proof.
  destruct (create_client_trace_shape Py.ascii_lower forwarding_client
    "HuggingFace"
              HuggingFaceClient (Some "hf-arg") None (imported ∅))
    as (gs & Hgs & Hrun).
  - vm_compute. reflexivity.
  - intros qualname. discriminate.
  - exists gs. split; [exact Hgs|]. exact Hrun.
Defined.

Lemma construct_and_create_agree
    (user_client : string -> Py.value -> Py.value -> M ClientHandle)
    (c : client_class) (api_key base_url : Py.value) (w1 w2 : world) :
  builtin c ->
  (forall key, key ∈ variables c -> environ w1 !! key = environ w2 !! key) ->
  exists r evs,
    ClientFactory.construct_and_create user_client c api_key base_url w1
    = (r, logged w1 evs)
    /\ ClientFactory.construct_and_create user_client c api_key base_url w2
       = (r, logged w2 evs).
Proof.
  intros Hc Henv.
  destruct c as [| | | |qualname]; [| | | |by destruct (Hc qualname)];
    simpl in Henv.
  - rewrite !construct_OpenAIClient. simpl.
    rewrite !(Henv "OPENAI_API_KEY"), !(Henv "OPENAI_ORG_ID"),
      !(Henv "OPENAI_PROJECT_ID") by repeat constructor.
    destruct (Py.truthy (resolved api_key _)); by eexists _, _.
  - rewrite !construct_AzureOpenAIClient. simpl.
    rewrite !(Henv "AZURE_OPENAI_API_KEY"), !(Henv "AZURE_OPENAI_ENDPOINT"),
      !(Henv "OPENAI_API_VERSION"), !(Henv "AZURE_OPENAI_DEPLOYMENT_NAME")
      by repeat constructor.
    by eexists _, _.
  - rewrite !construct_OllamaClient. simpl.
    rewrite !(Henv "OLLAMA_ENDPOINT_URL") by repeat constructor.
    by eexists _, _.
  - rewrite !construct_HuggingFaceClient. simpl.
    rewrite !(Henv "HF_API_TOKEN"), !(Henv "HF_ENDPOINT_URL")
      by repeat constructor.
    destruct (Py.truthy (resolved api_key _));
      [destruct (Py.truthy (resolved base_url _))|]; by eexists _, _.
Qed.

(** X2.  What the module does under one of its classes depends on the
    environment through the variables of that class only: in two worlds
    that agree on them, the call makes the same reads and the same call of
    the package, if any, and the constructor of the class returns the same
    resolver or raises the same error. *)
Theorem create_client_own_variables_only
    (lower : string -> string)
    (user_client : string -> Py.value -> Py.value -> M ClientHandle)
    (client_name : string) (c : client_class) (api_key base_url : Py.value)
    (w1 w2 : world) :
  Py.get (registry w1) (lower client_name) = Some c ->
  Py.get (registry w2) (lower client_name) = Some c ->
  builtin c ->
  (forall key, key ∈ variables c -> environ w1 !! key = environ w2 !! key) ->
  (exists evs,
     snd (ClientFactory.create_client lower user_client
            client_name api_key base_url w1) = logged w1 evs
     /\ snd (ClientFactory.create_client lower user_client
               client_name api_key base_url w2) = logged w2 evs)
  /\ (c = OpenAIClient ->
      forall organization project,
        fst (OpenAIClient.__init__ api_key base_url organization project w1)
        = fst (OpenAIClient.__init__ api_key base_url organization project w2))
  /\ (c = AzureOpenAIClient ->
      forall api_version azure_deployment,
        fst (AzureOpenAIClient.__init__
               api_key base_url api_version azure_deployment w1)
        = fst (AzureOpenAIClient.__init__
                 api_key base_url api_version azure_deployment w2))
  /\ (c = OllamaClient ->
      fst (OllamaClient.__init__ api_key base_url w1)
      = fst (OllamaClient.__init__ api_key base_url w2))
  /\ (c = HuggingFaceClient ->
      fst (HuggingFaceClient.__init__ api_key base_url w1)
      = fst (HuggingFaceClient.__init__ api_key base_url w2)).
Proof.
  intros Hget1 Hget2 Hc Henv. split_and!.
  - rewrite !create_client_eq, Hget1, Hget2.
    destruct (construct_and_create_agree user_client c api_key base_url
                w1 w2 Hc Henv) as (r & evs & -> & ->).
    by exists evs.
  - intros -> organization project. simpl in Henv.
    rewrite !OpenAIClient_init_eq. simpl.
    rewrite !(Henv "OPENAI_API_KEY"), !(Henv "OPENAI_ORG_ID"),
      !(Henv "OPENAI_PROJECT_ID") by repeat constructor.
    by destruct (Py.truthy (resolved api_key _)).
  - intros -> api_version azure_deployment. simpl in Henv.
    rewrite !AzureOpenAIClient_init_eq. simpl.
    by rewrite !(Henv "AZURE_OPENAI_API_KEY"),
      !(Henv "AZURE_OPENAI_ENDPOINT"), !(Henv "OPENAI_API_VERSION"),
      !(Henv "AZURE_OPENAI_DEPLOYMENT_NAME") by repeat constructor.
  - intros ->. simpl in Henv. rewrite !OllamaClient_init_eq. simpl.
    by rewrite !(Henv "OLLAMA_ENDPOINT_URL") by repeat constructor.
  - intros ->. simpl in Henv. rewrite !HuggingFaceClient_init_eq. simpl.
    rewrite !(Henv "HF_API_TOKEN"), !(Henv "HF_ENDPOINT_URL")
      by repeat constructor.
    by repeat destruct (Py.truthy _).
Qed.

Lemma create_client_own_variables_only_witness :
  fst (OllamaClient.__init__ None None
         (imported {[ "OPENAI_API_KEY" := "sk-env" ]})) =
  fst (OllamaClient.__init__ None None (imported ∅)).
Proof.
  apply (create_client_own_variables_only Py.ascii_lower forwarding_client
           "ollama" OllamaClient None None
           (imported {[ "OPENAI_API_KEY" := "sk-env" ]}) (imported ∅)).
  - vm_compute. reflexivity.
  - vm_compute. reflexivity.
  - intros qualname. discriminate.
  - intros key ->%list_elem_of_singleton. vm_compute. reflexivity.
  - reflexivity.
Defined.

(** X3.  With a non-empty credential and a non-empty endpoint as
    arguments, a call under any class of the module gets past the
    module's checks and calls the package with exactly these two; before
    that the environment is read for nothing but the organization and
    project of [OpenAIClient] and the API version and deployment of
    [AzureOpenAIClient], which the factory gives no way to pass.  What the
    package then returns or raises is its own. *)
Theorem explicit_arguments_reach_package
    (lower : string -> string)
    (user_client : string -> Py.value -> Py.value -> M ClientHandle)
    (client_name : string) (c : client_class) (api_key base_url : Py.value)
    (w : world) :
  Py.get (registry w) (lower client_name) = Some c ->
  builtin c ->
  Py.truthy api_key = true ->
  Py.truthy base_url = true ->
  let h :=
    match c with
    | OpenAIClient =>
        OpenAI api_key base_url
          (environ w !! "OPENAI_ORG_ID") (environ w !! "OPENAI_PROJECT_ID")
    | AzureOpenAIClient =>
        AzureOpenAI api_key base_url
          (environ w !! "OPENAI_API_VERSION")
          (environ w !! "AZURE_OPENAI_DEPLOYMENT_NAME")
    | _ => OpenAI api_key base_url None None
    end in
  let gs :=
    match c with
    | OpenAIClient => [Getenv "OPENAI_ORG_ID"; Getenv "OPENAI_PROJECT_ID"]
    | AzureOpenAIClient =>
        [Getenv "OPENAI_API_VERSION"; Getenv "AZURE_OPENAI_DEPLOYMENT_NAME"]
    | _ => []
    end in
  snd (ClientFactory.create_client lower user_client
         client_name api_key base_url w)
  = logged w (New c :: gs ++ [Built h]).
Proof.
  intros Hget Hc Hkey Hurl. rewrite create_client_eq, Hget.
  destruct c as [| | | |qualname]; [| | | |by destruct (Hc qualname)];
    simpl.
  - rewrite construct_OpenAIClient. unfold resolved, reads.
    by rewrite Hkey, Hurl; simpl; rewrite Hkey.
  - rewrite construct_AzureOpenAIClient. unfold resolved, reads.
    by rewrite Hkey, Hurl.
  - rewrite construct_OllamaClient. unfold resolved, reads.
    by rewrite Hkey, Hurl.
  - rewrite construct_HuggingFaceClient. unfold resolved, reads.
    by rewrite Hkey, Hurl; simpl; rewrite Hkey, Hurl.
Qed.

Lemma explicit_arguments_reach_package_witness :
  snd (ClientFactory.create_client Py.ascii_lower forwarding_client
         "AZURE" (Some "az-arg") (Some "http://az") (imported ∅)) =
  logged (imported ∅)
    [New AzureOpenAIClient;
     Getenv "OPENAI_API_VERSION"; Getenv "AZURE_OPENAI_DEPLOYMENT_NAME";
     Built (AzureOpenAI (Some "az-arg") (Some "http://az") None None)].
Proof.
  etrans.
  - apply (explicit_arguments_reach_package Py.ascii_lower forwarding_client
             "AZURE" AzureOpenAIClient (Some "az-arg") (Some "http://az")
             (imported ∅)).
    + vm_compute. reflexivity.
    + intros qualname. discriminate.
    + reflexivity.
    + reflexivity.
  - vm_compute. reflexivity.
Defined.

(** X4.  The handle that a call under a class of the module gets from
    the package and returns:
    for [OpenAIClient] and [AzureOpenAIClient] the two extra arguments of
    the package are always the values of the environment; for
    [OllamaClient] and [HuggingFaceClient] they are always [None]; and the
    credential of an [OpenAI] handle is a non-empty string, as is its
    endpoint except for [OllamaClient]. *)
Theorem returned_handle
    (lower : string -> string)
    (user_client : string -> Py.value -> Py.value -> M ClientHandle)
    (client_name : string) (c : client_class) (api_key base_url : Py.value)
    (w w' : world) (h : ClientHandle) :
  Py.get (registry w) (lower client_name) = Some c ->
  ClientFactory.create_client lower user_client client_name api_key base_url w
  = (Return h, w') ->
  (c = OpenAIClient ->
     exists key url,
       h = OpenAI key url
             (environ w !! "OPENAI_ORG_ID") (environ w !! "OPENAI_PROJECT_ID")
       /\ Py.truthy key = true /\ Py.truthy url = true)
  /\ (c = AzureOpenAIClient ->
        h = AzureOpenAI
              (resolved api_key (environ w !! "AZURE_OPENAI_API_KEY"))
              (resolved base_url (environ w !! "AZURE_OPENAI_ENDPOINT"))
              (environ w !! "OPENAI_API_VERSION")
              (environ w !! "AZURE_OPENAI_DEPLOYMENT_NAME"))
  /\ (c = OllamaClient ->
        exists key,
          h = OpenAI key
                (resolved base_url (environ w !! "OLLAMA_ENDPOINT_URL"))
                None None
          /\ Py.truthy key = true)
  /\ (c = HuggingFaceClient ->
        exists key url,
          h = OpenAI key url None None
          /\ Py.truthy key = true /\ Py.truthy url = true).
Proof.
  intros Hget. rewrite create_client_eq, Hget. intros Hrun.
  split_and!; intros ->.
  - rewrite construct_OpenAIClient in Hrun. simpl in Hrun.
    destruct (Py.truthy (resolved api_key _)) eqn:Hkey; [|done].
    injection Hrun as <- _. eexists _, _. split_and!; [done..|].
    rewrite truthy_resolved. apply orb_true_r.
  - rewrite construct_AzureOpenAIClient in Hrun. simpl in Hrun.
    by injection Hrun as <- _.
  - rewrite construct_OllamaClient in Hrun. simpl in Hrun.
    injection Hrun as <- _. eexists. split; [done|].
    rewrite truthy_resolved. apply orb_true_r.
  - rewrite construct_HuggingFaceClient in Hrun. simpl in Hrun.
    destruct (Py.truthy (resolved api_key _)) eqn:Hkey; [|done].
    destruct (Py.truthy (resolved base_url _)) eqn:Hurl; [|done].
    injection Hrun as <- _. by eexists _, _.
Qed.

Lemma returned_handle_witness :
  exists key,
    fst (ClientFactory.create_client Py.ascii_lower forwarding_client
      "Ollama" (Some "")
           None (imported {[ "OLLAMA_ENDPOINT_URL" := "http://local" ]})) =
    Return (OpenAI key (Some "http://local") None None)
    /\ Py.truthy key = true.
Proof.
  destruct (ClientFactory.create_client Py.ascii_lower forwarding_client
    "Ollama" (Some "")
              None (imported {[ "OLLAMA_ENDPOINT_URL" := "http://local" ]}))
    as [r w'] eqn:Hrun.
  assert (Hh : exists h, r = Return h).
  { vm_compute in Hrun. injection Hrun as <- _. eexists. reflexivity. }
  destruct Hh as [h ->].
  destruct (returned_handle Py.ascii_lower forwarding_client
    "Ollama" OllamaClient (Some "")
              None (imported {[ "OLLAMA_ENDPOINT_URL" := "http://local" ]})
              w' h) as (_ & _ & Hollama & _).
  - vm_compute. reflexivity.
  - exact Hrun.
  - destruct (Hollama eq_refl) as (key & -> & Hkey).
    exists key. split; [|exact Hkey]. vm_compute. reflexivity.
Defined.



(** ** The registry over a history *)

Lemma elem_of_keys_setitem {V} (d : Py.dict V) (k key : string) (v : V) :
  key ∈ Py.keys (Py.setitem d k v) <-> key ∈ Py.keys d \/ key = k.
Proof.
  destruct (decide (k ∈ Py.keys d)) as [Hin|Hnin].
  - rewrite keys_setitem_old by done. split; [by left|].
    by intros [?| ->].
  - rewrite keys_setitem_new by done.
    by rewrite elem_of_app, list_elem_of_singleton.
Qed.

Lemma append_assoc (a b c : string) : (a +:+ b) +:+ c = a +:+ b +:+ c.
Proof.
  induction a as [|x a IH]; [done|].
  change (String x ((a +:+ b) +:+ c) = String x (a +:+ b +:+ c)).
  by rewrite IH.
Qed.

Lemma join_snoc (sep x : string) (l : list string) :
  l <> [] -> Py.join sep (l ++ [x]) = Py.join sep l +:+ sep +:+ x.
Proof.
  unfold Py.join. induction l as [|y l IH]; [done|]. intros _.
  destruct l as [|z l]; [done|].
  change (String.concat sep ((y :: z :: l) ++ [x]))
    with (y +:+ sep +:+ String.concat sep ((z :: l) ++ [x])).
  rewrite IH by done.
  change (String.concat sep (y :: z :: l))
    with (y +:+ sep +:+ String.concat sep (z :: l)).
  by rewrite !append_assoc.
Qed.

(** X6.  The registry only grows, and by registered names only: after any
    history that shows every registration, the keys are the keys before,
    in their order, followed by the lowercased name of each registration
    under a name that was not a key yet, in the order of the
    registrations; and a name that resolved before still resolves. *)
Theorem registry_only_grows
    (lower : string -> string)
    (user_client : string -> Py.value -> Py.value -> M ClientHandle)
    (cs : list call) (w : world) :
  registrations_shown lower user_client w cs ->
  Py.keys (registry (after_calls lower user_client w cs))
  = Py.keys (registry w) ++ registered_keys lower (Py.keys (registry w)) cs
  /\ (forall key,
        is_Some (Py.get (registry w) key) ->
        is_Some (Py.get (registry (after_calls lower user_client w cs)) key)).
Proof.
  intros Hshown. split.
  - unfold after_calls. revert w Hshown.
    induction cs as [|c cs IH]; intros w Hshown; simpl.
    + by rewrite app_nil_r.
    + destruct Hshown as [Hc Hcs].
      rewrite IH by done. destruct c as [n k u|n T].
      * by rewrite Hc.
      * simpl. case_bool_decide as Hin.
        -- by rewrite keys_setitem_old.
        -- rewrite keys_setitem_new by done. by rewrite <- app_assoc.
  - intros key Hkey. rewrite get_after_shown by done.
    by destruct (last_registered lower key cs).
Qed.

Lemma registry_only_grows_witness :
  Py.keys (registry
             (after_calls Py.ascii_lower forwarding_client (imported ∅)
                [ RegisterClient "Mistral" (UserClient "Mistral");
                  CreateClient "nobody" None None;
                  RegisterClient "OLLAMA" HuggingFaceClient;
                  RegisterClient "Groq" OllamaClient;
                  RegisterClient "MISTRAL" OllamaClient ])) =
  ["openai"; "azure"; "ollama"; "huggingface"; "mistral"; "groq"].
Proof.
  etrans.
  - apply (registry_only_grows Py.ascii_lower forwarding_client
             [ RegisterClient "Mistral" (UserClient "Mistral");
               CreateClient "nobody" None None;
               RegisterClient "OLLAMA" HuggingFaceClient;
               RegisterClient "Groq" OllamaClient;
               RegisterClient "MISTRAL" OllamaClient ]
             (imported ∅)).
    apply keeps_registry_shown, forwarding_client_keeps_registry.
  - vm_compute. reflexivity.
Defined.

(** X8.  After a registration the unknown-name error lists what it listed
    before when the registered name was already a key, and the same list
    followed by the new lowercased name when it was not. *)
Theorem unknown_name_after_registration
    (lower : string -> string)
    (user_client : string -> Py.value -> Py.value -> M ClientHandle)
    (name0 : string) (T : client_class)
    (client_name : string) (api_key base_url : Py.value) (w : world) :
  let w' := snd (ClientFactory.register_client lower name0 T w) in
  lower client_name ∉ Py.keys (registry w') ->
  (lower name0 ∈ Py.keys (registry w) ->
     fst (ClientFactory.create_client lower user_client
            client_name api_key base_url w')
     = Raise (ValueError
         ("Unknown client name: " +:+ client_name
          +:+ ". Valid options are "
          +:+ Py.join ", " (Py.keys (registry w)) +:+ ".")))
  /\ (lower name0 ∉ Py.keys (registry w) ->
      Py.keys (registry w) <> [] ->
      fst (ClientFactory.create_client lower user_client
             client_name api_key base_url w')
      = Raise (ValueError
          ("Unknown client name: " +:+ client_name
           +:+ ". Valid options are "
           +:+ Py.join ", " (Py.keys (registry w))
           +:+ ", " +:+ lower name0 +:+ "."))).
Proof.
  intros w' Hnot. subst w'. rewrite register_client_eq in *. simpl in *.
  rewrite !create_client_eq. simpl. split; intros Hname0.
  - apply get_None in Hnot as ->. simpl.
    by rewrite keys_setitem_old.
  - intros Hkeys. apply get_None in Hnot as ->. simpl.
    rewrite keys_setitem_new by done.
    unfold ClientFactory.unknown_client_name.
    by rewrite join_snoc, !append_assoc.
Qed.

Lemma unknown_name_after_registration_witness :
  fst (ClientFactory.create_client Py.ascii_lower forwarding_client
    "Foo" None None
         (snd (ClientFactory.register_client Py.ascii_lower "Mistral" OllamaClient
                 (imported ∅)))) =
  Raise (ValueError
    "Unknown client name: Foo. Valid options are openai, azure, ollama, huggingface, mistral.").
Proof.
  etrans.
  - apply (proj2 (unknown_name_after_registration Py.ascii_lower forwarding_client
                    "Mistral" OllamaClient "Foo" None None (imported ∅)
                    ltac:(apply (bool_decide_unpack _); vm_compute;
                          exact I))).
    + apply (bool_decide_unpack _). vm_compute. exact I.
    + discriminate.
  - vm_compute. reflexivity.
Defined.

(** X9.  Registrations under names with different lowercase forms commute
    for everything but the order of the keys: either order leaves the
    same class under every key, the same keys up to their order, and the
    same environment and trace. *)
Theorem registrations_commute
    (lower : string -> string)
    (name1 name2 : string) (T1 T2 : client_class) (w : world) :
  lower name1 <> lower name2 ->
  let w12 :=
    snd (ClientFactory.register_client lower name2 T2
           (snd (ClientFactory.register_client lower name1 T1 w))) in
  let w21 :=
    snd (ClientFactory.register_client lower name1 T1
           (snd (ClientFactory.register_client lower name2 T2 w))) in
  (forall key, Py.get (registry w12) key = Py.get (registry w21) key)
  /\ Py.keys (registry w12) ≡ₚ Py.keys (registry w21)
  /\ environ w12 = environ w21
  /\ trace w12 = trace w21.
Proof.
  intros Hne w12 w21. subst w12 w21. rewrite !register_client_eq. simpl.
  set (d := registry w). set (k1 := lower name1) in *.
  set (k2 := lower name2) in *.
  assert (Hget : forall key,
            Py.get (Py.setitem (Py.setitem d k1 T1) k2 T2) key
            = Py.get (Py.setitem (Py.setitem d k2 T2) k1 T1) key).
  { intros key. destruct (decide (key = k2)) as [->|Hk2].
    - by rewrite get_setitem, get_setitem_ne, get_setitem.
    - rewrite (get_setitem_ne _ k2) by done.
      destruct (decide (key = k1)) as [->|Hk1].
      + by rewrite !get_setitem.
      + by rewrite !(get_setitem_ne _ k1), (get_setitem_ne _ k2). }
  split_and!; [done| |done|done].
  - destruct (decide (k1 ∈ Py.keys d)) as [H1|H1];
      destruct (decide (k2 ∈ Py.keys d)) as [H2|H2].
    + rewrite !keys_setitem_old; rewrite ?elem_of_keys_setitem; auto.
    + rewrite (keys_setitem_new _ k2), (keys_setitem_old _ k1),
        (keys_setitem_old _ k1), (keys_setitem_new _ k2);
        rewrite ?elem_of_keys_setitem; auto.
      by intros [?|?].
    + rewrite (keys_setitem_old _ k2), (keys_setitem_new _ k1),
        (keys_setitem_new _ k1), (keys_setitem_old _ k2);
        rewrite ?elem_of_keys_setitem; auto.
      by intros [?|?].
    + rewrite (keys_setitem_new _ k2), (keys_setitem_new _ k1),
        (keys_setitem_new _ k1), (keys_setitem_new _ k2);
        rewrite ?elem_of_keys_setitem; try done.
      * rewrite <- !app_assoc. simpl. f_equiv. apply perm_swap.
      * by intros [?|?].
      * by intros [?|?].
Qed.

Lemma registrations_commute_witness :
  Py.keys (registry
             (snd (ClientFactory.register_client Py.ascii_lower "B" OllamaClient
                     (snd (ClientFactory.register_client Py.ascii_lower "A" OpenAIClient
                             (imported ∅))))))
  ≡ₚ Py.keys (registry
                (snd (ClientFactory.register_client Py.ascii_lower "A" OpenAIClient
                        (snd (ClientFactory.register_client Py.ascii_lower "B" OllamaClient
                                (imported ∅)))))).
Proof.
  apply (registrations_commute Py.ascii_lower "A" "B"
           OpenAIClient OllamaClient (imported ∅)).
  vm_compute. discriminate.
Defined.

(** The two orders do differ in the order of the keys. *)
Example registrations_order_differs :
  Py.keys (registry
             (after_calls Py.ascii_lower forwarding_client (imported ∅)
                [RegisterClient "A" OpenAIClient;
                 RegisterClient "B" OllamaClient]))
  <> Py.keys (registry
                (after_calls Py.ascii_lower forwarding_client (imported ∅)
                   [RegisterClient "B" OllamaClient;
                    RegisterClient "A" OpenAIClient])).
Proof. vm_compute. discriminate. Qed.
